(** * Huginn agent: a model of [huginn_agent.py] and its properties

    The program watches one task file, hands each new task to a ReAct
    agent and delivers the answer by SMTP or, without a configured host,
    on standard output.  The three functions with control flow of their
    own are embedded here: [send_email], [run_task] and
    [TaskFileHandler.on_modified].  Everything outside the file (the
    agent, the SMTP server, the file system, the monotonic clock) is an
    input of the model: each call receives the answers the outside world
    gives, and produces the list of effects it performs together with
    its outcome (normal return, or the exception that escapes). *)

From Stdlib Require Import List String Ascii ZArith NArith Bool Arith Lia.
From Stdlib Require Import Floats.PrimFloat.
Import ListNotations.

Set Implicit Arguments.

(** ** Python strings *)

Module Py.

(** A Python [str] is a sequence of Unicode code points; [len] counts
    code points and slicing cuts between them. *)
Definition str := list N.

(** An ASCII literal of the source. *)
Definition lit (s : string) : str :=
  map N_of_ascii (list_ascii_of_string s).

(** [c.isspace()] for one code point, the table of CPython's
    [_PyUnicode_IsWhitespace]. *)
Definition isspace (c : N) : bool :=
  (((9 <=? c) && (c <=? 13)) || ((28 <=? c) && (c <=? 32))
   || (c =? 133) || (c =? 160) || (c =? 5760)
   || ((8192 <=? c) && (c <=? 8202))
   || (c =? 8232) || (c =? 8233) || (c =? 8239) || (c =? 8287)
   || (c =? 12288))%N.

Fixpoint lstrip (s : str) : str :=
  match s with
  | c :: s' => if isspace c then lstrip s' else s
  | [] => []
  end.

Definition rstrip (s : str) : str := rev (lstrip (rev s)).

(** [s.strip()] *)
Definition strip (s : str) : str := rstrip (lstrip s).

(** Truth value of a string: [not s] holds for the empty string only. *)
Definition truthy (s : str) : bool :=
  match s with [] => false | _ :: _ => true end.

(** [s[:n]] *)
Definition upto (n : nat) (s : str) : str := firstn n s.

(** [c * n] for a one-character string [c] *)
Definition times (c : string) (n : nat) : str := List.concat (repeat (lit c) n).

Fixpoint eqb (s t : str) : bool :=
  match s, t with
  | [], [] => true
  | a :: s', b :: t' => N.eqb a b && eqb s' t'
  | _, _ => false
  end.



(** The horizontal ellipsis U+2026, one code point. *)
Definition ellipsis : str := [8230%N].

End Py.

(** ** Exceptions *)

(** The classes the handlers of the program tell apart.  Since Python
    3.4 [smtplib.SMTPException] derives from [OSError]; [IndexError] is
    what [messages[-1]] raises on an empty list; [OtherException] is any
    other subclass of [Exception]; [NonException] is a [BaseException]
    outside [Exception] ([KeyboardInterrupt], [SystemExit]). *)
Inductive exn_class : Type :=
| SMTPException
| OSError
| IndexError
| OtherException
| NonException.

Record exn : Type := Exn { exn_cls : exn_class; exn_str : Py.str }.

(** [isinstance(exc, smtplib.SMTPException)] *)
Definition is_SMTPException (e : exn) : bool :=
  match exn_cls e with SMTPException => true | _ => false end.

(** [isinstance(exc, OSError)] *)
Definition is_OSError (e : exn) : bool :=
  match exn_cls e with SMTPException | OSError => true | _ => false end.

(** [isinstance(exc, Exception)] *)
Definition is_Exception (e : exn) : bool :=
  match exn_cls e with NonException => false | _ => true end.

(** ** Effects *)

Inductive level : Type := INFO | WARNING | ERROR.

(** The message built in [send_email]: a [MIMEMultipart] with three
    headers and one [MIMEText(body, "plain", "utf-8")] part. *)
Record mime : Type := Mime {
  mime_From : Py.str;
  mime_To : Py.str;
  mime_Subject : Py.str;
  mime_text : Py.str
}.

(** The calls made on the SMTP connection, in the order of the source. *)
Inductive smtp_op : Type :=
| SMTP_open (host : Py.str) (port : Z) (timeout : Z)
| SMTP_ehlo
| SMTP_starttls
| SMTP_login (user password : Py.str)
| SMTP_sendmail (from_addr : Py.str) (to_addrs : list Py.str) (msg : mime)
| SMTP_exit.

(** What a call does to the outside world. [Log] keeps the format string
    and its arguments apart, as the [logging] calls do; an exception
    among the arguments is kept as its [str], and [exc_info] is left
    out. *)
Inductive event : Type :=
| Log (lvl : level) (fmt : string) (args : list Py.str)
| Print (line : Py.str)
| Invoke (role content : Py.str) (recursion_limit : Z)
| ReadText (path : Py.str)
| Smtp (op : smtp_op).

Definition trace := list event.

(** How a call ends. *)
Inductive outcome (A : Type) : Type :=
| Return (a : A)
| Raise (e : exn).
Arguments Raise {A} e.

(** A computation: the effects performed, then the way it ended. *)
Definition M (A : Type) : Type := (trace * outcome A)%type.

Definition ret {A} (a : A) : M A := ([], Return a).

Definition raise {A} (e : exn) : M A := ([], Raise e).

Definition bind {A B} (m : M A) (k : A -> M B) : M B :=
  match m with
  | (t, Return a) => let (t', r) := k a in (t ++ t', r)
  | (t, Raise e) => (t, Raise e)
  end.

Definition emit (ev : event) : M unit := ([ev], Return tt).

Declare Scope py_scope.
Delimit Scope py_scope with py.
Notation "x <- m ;; k" := (bind m (fun x => k))
  (at level 61, m at next level, right associativity) : py_scope.
Notation "m ;; k" := (bind m (fun _ => k))
  (at level 61, right associativity) : py_scope.
Open Scope py_scope.

(** [try: m  except C1 as exc: h1 exc  except C2 as exc: h2 exc ...]:
    the first clause whose class the escaping exception is an instance
    of handles it; an exception no clause names goes on. *)
Definition clause (A : Type) : Type := ((exn -> bool) * (exn -> M A))%type.

Fixpoint dispatch {A} (t : trace) (e : exn) (cs : list (clause A)) : M A :=
  match cs with
  | [] => (t, Raise e)
  | (is_C, h) :: cs' =>
      if is_C e then let (t', r) := h e in (t ++ t', r)
      else dispatch t e cs'
  end.

Definition try_except {A} (m : M A) (cs : list (clause A)) : M A :=
  match m with
  | (t, Raise e) => dispatch t e cs
  | (_, Return _) => m
  end.

(** [with cm: body], after [cm] was entered: [__exit__] runs however the
    body ended; an exception of [__exit__] replaces the body's, and
    [SMTP.__exit__] never swallows one. *)
Definition with_exit {A} (body : M A) (exit : M unit) : M A :=
  let (t, r) := body in
  match exit with
  | (t', Return _) => (t ++ t', r)
  | (t', Raise e') => (t ++ t', Raise e')
  end.

Definition log (lvl : level) (fmt : string) (args : list Py.str) : M unit :=
  emit (Log lvl fmt args).

Definition print (line : Py.str) : M unit := emit (Print line).

(** ** Configuration *)

(** The module-level settings read from the environment at start-up.
    [TASKS_FILE] is stored resolved. *)
Record config : Type := Config {
  TASKS_FILE : Py.str;
  SMTP_HOST : Py.str;
  SMTP_PORT : Z;
  SMTP_USER : Py.str;
  SMTP_PASSWORD : Py.str;
  EMAIL_SENDER : Py.str;
  EMAIL_RECIPIENT : Py.str
}.

(** ** The outside world *)

(** The SMTP server, seen from the client: whether the [i]-th call of a
    session (0 opens the connection, 6 is [__exit__]) raises. *)
Definition smtp_server : Type := nat -> option exn.

(** One entry of [result["messages"]]: an object with a [content]
    attribute, or any other value, of which [str] gives [repr]. *)
Inductive message : Type :=
| Message (role content : Py.str)
| Opaque (repr : Py.str).

(** What [AGENT.invoke] does: return a state with its messages, or raise. *)
Definition agent : Type := outcome (list message).

(** A file-system notification of watchdog. *)
Record fs_event : Type := FsEvent {
  is_directory : bool;
  src_path : Py.str
}.

(** What the world answers during one call of the handler: the reading
    of the monotonic clock, the result of reading the task file, the
    agent's behaviour and the SMTP server's. *)
Record world : Type := World {
  monotonic : float;
  read_text : outcome Py.str;
  the_agent : agent;
  the_server : smtp_server
}.

Definition smtp_call (srv : smtp_server) (i : nat) (op : smtp_op) : M unit :=
  emit (Smtp op) ;;
  match srv i with
  | Some e => raise e
  | None => ret tt
  end.

Definition AGENT_invoke (a : agent) (role content : Py.str) (limit : Z)
  : M (list message) :=
  ([Invoke role content limit], a).

Definition TASKS_FILE_read_text (cfg : config) (w : world) : M Py.str :=
  ([ReadText (TASKS_FILE cfg)], read_text w).

(** [xs[-1]] *)
Definition last_item (xs : list message) : M message :=
  match rev xs with
  | x :: _ => ret x
  | [] => raise (Exn IndexError (Py.lit "list index out of range"))
  end.

Definition nl : Py.str := [10%N].

(** ** The program *)

Section Program.

Variable cfg : config.

(** [Path(p).resolve()], which depends on the file system. *)
Variable resolve : Py.str -> Py.str.

(** [send_email(subject, body)].  Building the MIME message is pure. *)
Definition send_email (srv : smtp_server) (subject body : Py.str) : M unit :=
  if negb (Py.truthy (SMTP_HOST cfg)) then
    log WARNING
      "SMTP_HOST is not set – skipping email and printing the answer instead."
      [] ;;
    print (nl ++ Py.times "=" 60) ;;
    print (Py.lit "FINAL ANSWER") ;;
    print (Py.times "=" 60) ;;
    print body ;;
    print (Py.times "=" 60 ++ nl) ;;
    ret tt
  else
    let msg :=
      {| mime_From := EMAIL_SENDER cfg;
         mime_To := EMAIL_RECIPIENT cfg;
         mime_Subject := subject;
         mime_text := body |} in
    try_except
      (smtp_call srv 0 (SMTP_open (SMTP_HOST cfg) (SMTP_PORT cfg) 30) ;;
       with_exit
         (smtp_call srv 1 SMTP_ehlo ;;
          smtp_call srv 2 SMTP_starttls ;;
          smtp_call srv 3 SMTP_ehlo ;;
          smtp_call srv 4 (SMTP_login (SMTP_USER cfg) (SMTP_PASSWORD cfg)) ;;
          smtp_call srv 5
            (SMTP_sendmail (EMAIL_SENDER cfg) [EMAIL_RECIPIENT cfg] msg))
         (smtp_call srv 6 SMTP_exit) ;;
       log INFO "Email sent successfully to %s" [EMAIL_RECIPIENT cfg])
      [ (is_SMTPException,
         fun exc =>
           log ERROR "SMTP error while sending email: %s" [exn_str exc]);
        (is_OSError,
         fun exc =>
           log ERROR "Network error while sending email: %s" [exn_str exc]) ].

(** [run_task(task_text)].  The [return] inside the [except] clause is
    the [None] that skips the rest of the body. *)
Definition run_task (a : agent) (srv : smtp_server) (task_text : Py.str)
  : M unit :=
  let task_text := Py.strip task_text in
  if negb (Py.truthy task_text) then
    log INFO "tasks.txt is empty – nothing to do." []
  else
    log INFO "Starting agent for task:\n  %s" [Py.upto 200 task_text] ;;
    r <- try_except
           (result <- AGENT_invoke a (Py.lit "user") task_text 30 ;;
            ret (Some result))
           [ (is_Exception,
              fun exc =>
                log ERROR "Agent raised an unexpected error: %s"
                  [exn_str exc] ;;
                ret None) ] ;;
    match r with
    | None => ret tt
    | Some result =>
        final_message <- last_item result ;;
        let final_answer :=
          match final_message with
          | Message _ content => content
          | Opaque repr => repr
          end in
        log INFO "Agent finished. Dispatching answer …" [] ;;
        let short_task :=
          Py.upto 60 task_text
          ++ (if 60 <? List.length task_text then Py.ellipsis else []) in
        send_email srv (Py.lit "[Huginn] " ++ short_task) final_answer
    end.

(** The handler object: the monotonic timestamp of the last handled
    event. *)
Record TaskFileHandler : Type := Handler { _last_modified : float }.

(** [TaskFileHandler.__init__] *)
Definition TaskFileHandler_init : TaskFileHandler :=
  {| _last_modified := 0 |}.

(** [TaskFileHandler.on_modified(self, event)]: the handler after the
    call, and what the call did. *)
Definition on_modified (self : TaskFileHandler) (event : fs_event) (w : world)
  : TaskFileHandler * M unit :=
  if is_directory event then (self, ret tt)
  else if negb (Py.eqb (resolve (src_path event)) (TASKS_FILE cfg)) then
    (self, ret tt)
  else
    let now := monotonic w in
    if (now - _last_modified self <? 1)%float then (self, ret tt)
    else
      let self := {| _last_modified := now |} in
      (self,
       log INFO "Change detected in %s" [TASKS_FILE cfg] ;;
       r <- try_except
              (content <- TASKS_FILE_read_text cfg w ;; ret (Some content))
              [ (is_OSError,
                 fun exc =>
                   log ERROR "Could not read %s: %s"
                     [TASKS_FILE cfg; exn_str exc] ;;
                   ret None) ] ;;
       match r with
       | None => ret tt
       | Some content => run_task (the_agent w) (the_server w) content
       end).

(** The calls the observer makes on one handler object, in order: the
    handler after them and everything they did.  Each notification comes
    with the world's answers during its call. *)
Fixpoint on_modified_all (self : TaskFileHandler)
  (ns : list (fs_event * world)) : TaskFileHandler * trace :=
  match ns with
  | [] => (self, [])
  | (event, w) :: ns' =>
      let (self', m) := on_modified self event w in
      let (self'', t) := on_modified_all self' ns' in
      (self'', fst m ++ t)
  end.

End Program.

(** ** Observations on traces *)

Definition is_read (ev : event) : bool :=
  match ev with ReadText _ => true | _ => false end.

Definition is_invoke (ev : event) : bool :=
  match ev with Invoke _ _ _ => true | _ => false end.

Definition is_print (ev : event) : bool :=
  match ev with Print _ => true | _ => false end.

Definition is_smtp (ev : event) : bool :=
  match ev with Smtp _ => true | _ => false end.

(** What only [send_email] does: writing to standard output and talking
    to the SMTP server. *)
Definition is_delivery (ev : event) : bool := is_print ev || is_smtp ev.

(** The handler's trigger is the reading of the task file: the number of
    triggers in a trace. *)
Definition triggers (t : trace) : nat := List.length (filter is_read t).



(** The notification is for the watched file itself. *)
Definition qualifies (cfg : config) (resolve : Py.str -> Py.str)
  (event : fs_event) : Prop :=
  is_directory event = false
  /\ Py.eqb (resolve (src_path event)) (TASKS_FILE cfg) = true.

(** Successive clock readings, each at least the debounce window after
    the one before, by the test of the source; [last] is the timestamp
    the handler holds before the first. *)
Fixpoint spaced (last : float) (ns : list (fs_event * world)) : Prop :=
  match ns with
  | [] => True
  | (_, w) :: ns' =>
      (monotonic w - last <? 1)%float = false /\ spaced (monotonic w) ns'
  end.

(** The computation performs no effect of the kind [P]. *)
Definition silent (P : event -> bool) {A} (m : M A) : Prop :=
  filter P (fst m) = [].

(** The effects of [run_task] before it hears from the agent. *)
Definition run_task_start (task : Py.str) : trace :=
  [ Log INFO "Starting agent for task:\n  %s" [Py.upto 200 task];
    Invoke (Py.lit "user") task 30 ].

(** What a call that passes the filter and the debounce does after it
    stored the timestamp, by the result of reading the file. *)
Definition handle_change (cfg : config) (w : world) : M unit :=
  match read_text w with
  | Return content =>
      let (tr, r) := run_task cfg (the_agent w) (the_server w) content in
      (Log INFO "Change detected in %s" [TASKS_FILE cfg]
       :: ReadText (TASKS_FILE cfg) :: tr, r)
  | Raise e =>
      if is_OSError e then
        ([ Log INFO "Change detected in %s" [TASKS_FILE cfg];
           ReadText (TASKS_FILE cfg);
           Log ERROR "Could not read %s: %s" [TASKS_FILE cfg; exn_str e] ],
         Return tt)
      else
        ([ Log INFO "Change detected in %s" [TASKS_FILE cfg];
           ReadText (TASKS_FILE cfg) ],
         Raise e)
  end.

(** ** Example configurations and worlds *)

Definition console_cfg : config :=
  Config (Py.lit "/home/huginn/tasks.txt") [] 587 [] [] [] [].

Definition smtp_cfg : config :=
  Config (Py.lit "/home/huginn/tasks.txt") (Py.lit "smtp.example.org") 587
    (Py.lit "raven") (Py.lit "secret")
    (Py.lit "raven@example.org") (Py.lit "odin@example.org").

Definition accepting : smtp_server := fun _ => None.

Definition rejecting_login : smtp_server :=
  fun i =>
    if Nat.eqb i 4
    then Some (Exn SMTPException (Py.lit "(535, b'authentication failed')"))
    else None.



(** The [KeyboardInterrupt] of Ctrl-C, whose [str] is empty. *)
Definition ctrl_c : exn := Exn NonException [].

Definition model_down : exn :=
  Exn OtherException (Py.lit "[Errno 111] Connection refused").


(** A run that answered at once, and a run that stopped after a tool
    round with the same last message. *)
Definition answered : list message :=
  [ Message (Py.lit "human") (Py.lit "capital of France?");
    Message (Py.lit "ai") (Py.lit "Paris.") ].


(** ** Example notifications *)

Definition watched : fs_event :=
  FsEvent false (Py.lit "/home/huginn/tasks.txt").

Definition other_file : fs_event :=
  FsEvent false (Py.lit "/home/huginn/notes.txt").

(** Paths that are already resolved. *)
Definition resolved (p : Py.str) : Py.str := p.

(** The world at a clock reading, with the task file holding a
    question, the agent answering it and the server accepting. *)
Definition at_time (now : float) : world :=
  World now (Return (Py.lit "capital of France?")) (Return answered)
    accepting.

(** The world at a clock reading when the task file cannot be read. *)
Definition unreadable_at (now : float) : world :=
  World now (Raise (Exn OSError (Py.lit "[Errno 13] Permission denied")))
    (Return answered) accepting.

(** ** Further observations *)

(** The calls made on the SMTP connection, in order. *)
Definition smtp_calls (t : trace) : list smtp_op :=
  flat_map (fun ev => match ev with Smtp op => [op] | _ => [] end) t.

(** The number of calls of the agent in a trace. *)
Definition invocations (t : trace) : nat := List.length (filter is_invoke t).




(** The two tests at the head of [on_modified], as one. *)
Definition passes_filter (cfg : config) (resolve : Py.str -> Py.str)
  (event : fs_event) : bool :=
  negb (is_directory event)
  && Py.eqb (resolve (src_path event)) (TASKS_FILE cfg).

(** The first character, if there is one, is not white space. *)
Definition clean_head (s : Py.str) : Prop :=
  match s with
  | [] => True
  | c :: _ => Py.isspace c = false
  end.

(** ** Start-up: the settings *)

(** [os.environ] once [load_dotenv()] has run: the value of a variable,
    when it is set. *)
Definition environ : Type := Py.str -> option Py.str.

(** [os.getenv(key, default)] *)
Definition getenv (env : environ) (key : string) (default : Py.str)
  : Py.str :=
  match env (Py.lit key) with
  | Some v => v
  | None => default
  end.

(** [OLLAMA_BASE_URL] *)
Definition OLLAMA_BASE_URL (env : environ) : Py.str :=
  getenv env "OLLAMA_BASE_URL" (Py.lit "http://localhost:11434").

Section Settings.

(** [int(s)]: the integer a string denotes, or the [ValueError]. *)
Variable int : Py.str -> outcome Z.

(** [Path(s).expanduser().resolve()], which depends on the file system. *)
Variable expanduser_resolve : Py.str -> Py.str.


End Settings.

(** ** The entry point *)

Module Main.

(** What a call made by the main thread can raise: the interrupt of
    Ctrl-C, which can arrive during any call, or another exception. *)
Inductive signal : Type :=
| KeyboardInterrupt
| Other (e : exn).

(** The calls [main] makes on the file system, the observer and the
    clock. *)
Inductive op : Type :=
| Mkdir (path : Py.str) (parents exist_ok : bool)
| Exists (path : Py.str)
| WriteText (path content : Py.str)
| Schedule (path : Py.str) (recursive : bool)
| Start
| Sleep (seconds : Z)
| Stop
| Join.

Inductive effect : Type :=
| Call (o : op)
| Logged (lvl : level) (fmt : string) (args : list Py.str).

Inductive ending : Type :=
| Done
| Raised (s : signal).

(** A run of statements: what was done, and how it ended. *)
Definition run : Type := (list effect * ending)%type.

Definition skip : run := ([], Done).

Definition andthen (m k : run) : run :=
  match m with
  | (t, Done) => let (t', r) := k in (t ++ t', r)
  | (t, Raised s) => (t, Raised s)
  end.

Declare Scope main_scope.
Delimit Scope main_scope with main.
Notation "m >> k" := (andthen m k)
  (at level 62, right associativity) : main_scope.
Open Scope main_scope.

(** [try: m  except KeyboardInterrupt: h] *)
Definition except_KeyboardInterrupt (m h : run) : run :=
  match m with
  | (t, Raised KeyboardInterrupt) => let (t', r) := h in (t ++ t', r)
  | _ => m
  end.

(** [try: m  finally: f]: [f] runs however [m] ended; when [f] raises,
    that is what goes on, otherwise the ending of [m] stands. *)
Definition finally (m f : run) : run :=
  let (t, r) := m in
  match f with
  | (t', Done) => (t ++ t', r)
  | (t', Raised s) => (t ++ t', Raised s)
  end.

(** What the world answers during one run of [main]: whether the task
    file exists, which of the calls other than [sleep] raise, how many
    calls of [sleep] return, and what the next one raises.  A run in
    which every [sleep] returns goes on for ever and has no trace. *)
Record world : Type := World {
  file_exists : bool;
  fails : op -> option signal;
  naps : nat;
  woken_by : signal
}.

Definition call (w : world) (o : op) : run :=
  ([Call o], match fails w o with Some s => Raised s | None => Done end).

Definition info (fmt : string) (args : list Py.str) : run :=
  ([Logged INFO fmt args], Done).

(** [while True: time.sleep(1)] when [k] calls return and the next is
    ended by [s]. *)
Fixpoint keep_alive (k : nat) (s : signal) : run :=
  match k with
  | 0 => ([Call (Sleep 1)], Raised s)
  | S k' => ([Call (Sleep 1)], Done) >> keep_alive k' s
  end.

Section Entry.

Variable cfg : config.

(** [TASKS_FILE.parent], as a string. *)
Variable parent : Py.str.

(** [main()].  The handler runs on the observer's thread; what it does
    is not part of this run. *)
Definition main (w : world) : run :=
  call w (Mkdir parent true true) >>
  ([Call (Exists (TASKS_FILE cfg))], Done) >>
  (if negb (file_exists w) then
     call w (WriteText (TASKS_FILE cfg) []) >>
     info "Created empty task file at %s" [TASKS_FILE cfg]
   else skip) >>
  info "Watching %s for changes …  (Ctrl-C to stop)" [TASKS_FILE cfg] >>
  call w (Schedule parent false) >>
  call w Start >>
  finally
    (except_KeyboardInterrupt
       (keep_alive (naps w) (woken_by w))
       (info "Interrupt received. Shutting down …" []))
    (call w Stop >>
     call w Join >>
     info "Goodbye." []).

End Entry.

(** The calls of a run, without the log records. *)
Definition calls (t : list effect) : list op :=
  flat_map (fun ef => match ef with Call o => [o] | Logged _ _ _ => [] end) t.

(** A world in which nothing but the end of the keep-alive loop raises. *)
Definition calm (exists_ : bool) (k : nat) (s : signal) : world :=
  {| file_exists := exists_; fails := fun _ => None;
     naps := k; woken_by := s |}.

End Main.

(** ** Strings *)

Lemma lstrip_all_space (s : Py.str) :
  forallb Py.isspace s = true -> Py.lstrip s = [].
Proof.
  induction s as [|c s IH]; simpl; intros H.
  - reflexivity.
  - apply andb_true_iff in H as [Hc Hs]. rewrite Hc. now apply IH.
Qed.

Lemma strip_all_space (s : Py.str) :
  forallb Py.isspace s = true -> Py.strip s = [].
Proof.
  intros H. unfold Py.strip, Py.rstrip.
  now rewrite (lstrip_all_space s H).
Qed.

Lemma lstrip_nil_all_space (s : Py.str) :
  Py.lstrip s = [] -> forallb Py.isspace s = true.
Proof.
  induction s as [|c s IH]; simpl; intros H.
  - reflexivity.
  - destruct (Py.isspace c); [now apply IH | discriminate].
Qed.

Lemma lstrip_suffix (s : Py.str) :
  exists p, s = p ++ Py.lstrip s /\ forallb Py.isspace p = true.
Proof.
  induction s as [|c s [p [Hs Hp]]]; simpl.
  - now exists [].
  - destruct (Py.isspace c) eqn:Hc.
    + exists (c :: p). simpl. rewrite Hc, Hp. split; [now f_equal | reflexivity].
    + now exists [].
Qed.

(** A stripped text is empty only when the text is all white space. *)
Lemma strip_nil_all_space (s : Py.str) :
  Py.strip s = [] -> forallb Py.isspace s = true.
Proof.
  unfold Py.strip, Py.rstrip. intros H.
  assert (Hr : Py.lstrip (rev (Py.lstrip s)) = []).
  { rewrite <- (rev_involutive (Py.lstrip (rev (Py.lstrip s)))).
    now rewrite H. }
  apply lstrip_nil_all_space in Hr.
  destruct (lstrip_suffix s) as [p [Hs Hp]].
  rewrite Hs, forallb_app, Hp. simpl.
  rewrite forallb_forall in *. intros c Hc. apply Hr.
  now apply in_rev in Hc.
Qed.

Lemma truthy_false (s : Py.str) : Py.truthy s = false <-> s = [].
Proof. destruct s; simpl; split; congruence. Qed.


(** ** Traces of composed computations *)

Section Traces.

Variable P : event -> bool.

Lemma silent_ret {A} (a : A) : silent P (ret a).
Proof. reflexivity. Qed.

Lemma silent_raise {A} (e : exn) : silent P (@raise A e).
Proof. reflexivity. Qed.

Lemma silent_emit (ev : event) : P ev = false -> silent P (emit ev).
Proof. unfold silent; simpl; intros ->; reflexivity. Qed.

Lemma silent_bind {A B} (m : M A) (k : A -> M B) :
  silent P m -> (forall a, silent P (k a)) -> silent P (bind m k).
Proof.
  unfold silent. destruct m as [t [a|e]]; simpl; intros Hm Hk.
  - specialize (Hk a). destruct (k a) as [t' r]. simpl in *.
    now rewrite filter_app, Hm, Hk.
  - exact Hm.
Qed.

Lemma silent_dispatch {A} (t : trace) (e : exn) (cs : list (clause A)) :
  filter P t = [] ->
  Forall (fun c => forall e', silent P (snd c e')) cs ->
  silent P (dispatch t e cs).
Proof.
  intros Ht Hcs. induction Hcs as [|[is_C h] cs Hh _ IH]; simpl.
  - exact Ht.
  - destruct (is_C e); [|exact IH].
    specialize (Hh e). unfold silent in *. simpl in Hh.
    destruct (h e) as [t' r]. simpl in *. now rewrite filter_app, Ht, Hh.
Qed.

Lemma silent_try_except {A} (m : M A) (cs : list (clause A)) :
  silent P m ->
  Forall (fun c => forall e', silent P (snd c e')) cs ->
  silent P (try_except m cs).
Proof.
  destruct m as [t [a|e]]; simpl; intros Hm Hcs.
  - exact Hm.
  - now apply silent_dispatch.
Qed.

Lemma silent_with_exit {A} (body : M A) (exit : M unit) :
  silent P body -> silent P exit -> silent P (with_exit body exit).
Proof.
  unfold silent, with_exit. destruct body as [t r], exit as [t' [u|e]];
    simpl; intros Hb He; now rewrite filter_app, Hb, He.
Qed.

Lemma silent_smtp_call (srv : smtp_server) (i : nat) (op : smtp_op) :
  P (Smtp op) = false -> silent P (smtp_call srv i op).
Proof.
  intros H. unfold smtp_call. apply silent_bind.
  - now apply silent_emit.
  - intros _. destruct (srv i); [apply silent_raise | apply silent_ret].
Qed.

End Traces.

Lemma triggers_app (t t' : trace) : triggers (t ++ t') = triggers t + triggers t'.
Proof. unfold triggers. now rewrite filter_app, length_app. Qed.


(** ** What each function can do *)

(** Running through the calls of one SMTP session, by what the server
    answers to each. *)
Ltac session srv :=
  unfold send_email, smtp_call;
  destruct (srv 0) eqn:?; [cbn | destruct (srv 1) eqn:?, (srv 2) eqn:?,
    (srv 3) eqn:?, (srv 4) eqn:?, (srv 5) eqn:?, (srv 6) eqn:?; cbn].



Section Footprints.

Variable cfg : config.

(** With a host configured [send_email] logs and talks to the server,
    and does nothing else. *)
Lemma send_email_network_footprint (P : event -> bool) srv subject body :
  Py.truthy (SMTP_HOST cfg) = true ->
  (forall lvl fmt args, P (Log lvl fmt args) = false) ->
  (forall op, P (Smtp op) = false) ->
  silent P (send_email cfg srv subject body).
Proof.
  intros Hhost Hlog Hsmtp. unfold send_email, log. rewrite Hhost.
  simpl negb. cbv iota.
  apply silent_try_except.
  - apply silent_bind; [now apply silent_smtp_call | intros _].
    apply silent_bind; [| intros _; now apply silent_emit].
    apply silent_with_exit; [| now apply silent_smtp_call].
    repeat (apply silent_bind; [now apply silent_smtp_call | intros _]).
    now apply silent_smtp_call.
  - repeat constructor; intros e'; simpl; now apply silent_emit.
Qed.

(** Nothing but the handler reads the task file, and nothing but
    [run_task] calls the agent. *)
Lemma send_email_footprint (P : event -> bool) srv subject body :
  (forall lvl fmt args, P (Log lvl fmt args) = false) ->
  (forall l, P (Print l) = false) ->
  (forall op, P (Smtp op) = false) ->
  silent P (send_email cfg srv subject body).
Proof.
  intros Hlog Hprint Hsmtp.
  destruct (Py.truthy (SMTP_HOST cfg)) eqn:Hhost.
  - now apply send_email_network_footprint.
  - unfold send_email, log, print. rewrite Hhost. simpl negb. cbv iota.
    repeat (apply silent_bind; [now apply silent_emit | intros _]).
    apply silent_ret.
Qed.

Lemma run_task_no_read a srv task_text :
  silent is_read (run_task cfg a srv task_text).
Proof.
  unfold run_task, log.
  destruct (negb (Py.truthy (Py.strip task_text))).
  - now apply silent_emit.
  - apply silent_bind; [now apply silent_emit | intros _].
    apply silent_bind.
    + apply silent_try_except.
      * unfold AGENT_invoke, silent. destruct a; reflexivity.
      * repeat constructor.
    + intros [result|]; [| apply silent_ret].
      apply silent_bind.
      * unfold last_item. destruct (rev result); [apply silent_raise | apply silent_ret].
      * intros m. apply silent_bind; [now apply silent_emit | intros _].
        now apply send_email_footprint.
Qed.


End Footprints.

(** ** Delivery *)









(** ** Running a task *)

Section RunTask.

Variable cfg : config.
Variable srv : smtp_server.

Lemma run_task_blank a content :
  Py.strip content = [] ->
  run_task cfg a srv content =
  ([Log INFO "tasks.txt is empty – nothing to do." []], Return tt).
Proof. intros H. unfold run_task. rewrite H. reflexivity. Qed.

Lemma run_task_raised e content :
  Py.strip content <> [] ->
  is_Exception e = true ->
  run_task cfg (Raise e) srv content =
  (run_task_start (Py.strip content)
   ++ [Log ERROR "Agent raised an unexpected error: %s" [exn_str e]],
   Return tt).
Proof.
  intros Ht He. unfold run_task.
  destruct (Py.strip content) as [|c t] eqn:Hs; [congruence|].
  cbn. rewrite He. reflexivity.
Qed.

Lemma run_task_escaped e content :
  Py.strip content <> [] ->
  is_Exception e = false ->
  run_task cfg (Raise e) srv content =
  (run_task_start (Py.strip content), Raise e).
Proof.
  intros Ht He. unfold run_task.
  destruct (Py.strip content) as [|c t] eqn:Hs; [congruence|].
  cbn. rewrite He. reflexivity.
Qed.

Lemma run_task_returned msgs m content :
  Py.strip content <> [] ->
  run_task cfg (Return (msgs ++ [m])) srv content =
  (emit (Log INFO "Starting agent for task:\n  %s"
           [Py.upto 200 (Py.strip content)]) ;;
   emit (Invoke (Py.lit "user") (Py.strip content) 30) ;;
   emit (Log INFO "Agent finished. Dispatching answer …" []) ;;
   send_email cfg srv
     (Py.lit "[Huginn] " ++ Py.upto 60 (Py.strip content)
      ++ (if 60 <? List.length (Py.strip content) then Py.ellipsis else []))
     match m with Message _ content => content | Opaque repr => repr end).
Proof.
  intros Ht. unfold run_task.
  destruct (Py.strip content) as [|c t] eqn:Hs; [congruence|].
  unfold log, AGENT_invoke, last_item.
  cbn -[Nat.ltb send_email Py.upto Py.lit rev].
  rewrite rev_app_distr.
  cbn -[Nat.ltb send_email Py.upto Py.lit].
  destruct (send_email _ _ _ _) as [tr r]. reflexivity.
Qed.

End RunTask.

(** C5. Empty-task no-op: when the content is empty or all white space,
    [run_task] logs that there is nothing to do and returns; the agent
    is not invoked and nothing is delivered. *)
Theorem run_task_empty_noop (cfg : config) (a : agent) (srv : smtp_server)
  (content : Py.str) :
  forallb Py.isspace content = true ->
  run_task cfg a srv content =
    ([Log INFO "tasks.txt is empty – nothing to do." []], Return tt)
  /\ existsb is_invoke (fst (run_task cfg a srv content)) = false
  /\ existsb is_delivery (fst (run_task cfg a srv content)) = false.
Proof.
  intros H. apply strip_all_space in H.
  rewrite (run_task_blank cfg srv a content H). repeat split.
Qed.

(** A task file holding a newline and two blanks. *)
Lemma run_task_empty_noop_witness :
  run_task smtp_cfg (Return answered) accepting (nl ++ Py.lit "  ") =
    ([Log INFO "tasks.txt is empty – nothing to do." []], Return tt)
  /\ existsb is_invoke
       (fst (run_task smtp_cfg (Return answered) accepting
               (nl ++ Py.lit "  "))) = false
  /\ existsb is_delivery
       (fst (run_task smtp_cfg (Return answered) accepting
               (nl ++ Py.lit "  "))) = false.
Proof.
  apply (run_task_empty_noop smtp_cfg (Return answered) accepting
           (nl ++ Py.lit "  ")).
  reflexivity.
Defined.

(** The no-op happens for no other content: a text with a character
    that is not white space reaches the agent. *)
Lemma run_task_nonblank_invokes (cfg : config) (a : agent)
  (srv : smtp_server) (content : Py.str) :
  forallb Py.isspace content = false ->
  existsb is_invoke (fst (run_task cfg a srv content)) = true.
Proof.
  intros H. unfold run_task.
  destruct (Py.strip content) as [|c t] eqn:Hs.
  - apply strip_nil_all_space in Hs. congruence.
  - cbn. destruct a as [msgs|e]; cbn.
    + destruct (last_item msgs) as [tr [m|e]]; cbn; [| reflexivity].
      destruct (send_email _ _ _ _). reflexivity.
    + destruct (is_Exception e); reflexivity.
Qed.



(** A task of 61 characters is cut to 60 and gets the ellipsis: the
    subject header sent has 70 characters. *)
Lemma run_task_subject_long :
  exists rest,
    filter is_smtp
      (fst (run_task smtp_cfg (Return answered) accepting
              (Py.times "a" 61))) =
    [ Smtp (SMTP_open (Py.lit "smtp.example.org") 587 30);
      Smtp SMTP_ehlo; Smtp SMTP_starttls; Smtp SMTP_ehlo;
      Smtp (SMTP_login (Py.lit "raven") (Py.lit "secret"));
      Smtp (SMTP_sendmail (Py.lit "raven@example.org")
              [Py.lit "odin@example.org"]
              (Mime (Py.lit "raven@example.org") (Py.lit "odin@example.org")
                 (Py.lit "[Huginn] " ++ Py.times "a" 60 ++ Py.ellipsis)
                 (Py.lit "Paris."))) ] ++ rest
    /\ List.length (Py.lit "[Huginn] " ++ Py.times "a" 60 ++ Py.ellipsis) = 70.
Proof. exists [Smtp SMTP_exit]. split; vm_compute; reflexivity. Qed.

(** C1, as the code has it. Agent errors: when the agent invocation
    raises an [Exception], [run_task] logs the error at level ERROR and
    returns normally; [send_email] is not called, so no failure notice
    is delivered. *)
Theorem run_task_agent_error (cfg : config) (srv : smtp_server) (e : exn)
  (content : Py.str) :
  Py.strip content <> [] ->
  is_Exception e = true ->
  run_task cfg (Raise e) srv content =
    (run_task_start (Py.strip content)
     ++ [Log ERROR "Agent raised an unexpected error: %s" [exn_str e]],
     Return tt)
  /\ existsb is_delivery (fst (run_task cfg (Raise e) srv content)) = false.
Proof.
  intros Ht He. rewrite (run_task_raised cfg srv e content Ht He).
  split; reflexivity.
Qed.

(** The model service refuses the connection. *)
Lemma run_task_agent_error_witness :
  run_task smtp_cfg (Raise model_down) accepting (Py.lit "capital of France?") =
    (run_task_start (Py.strip (Py.lit "capital of France?"))
     ++ [Log ERROR "Agent raised an unexpected error: %s"
           [exn_str model_down]],
     Return tt)
  /\ existsb is_delivery
       (fst (run_task smtp_cfg (Raise model_down) accepting
               (Py.lit "capital of France?"))) = false.
Proof.
  apply (run_task_agent_error smtp_cfg accepting model_down
           (Py.lit "capital of France?")).
  - vm_compute. discriminate.
  - reflexivity.
Defined.

(** C1 as stated fails: the agent raises on the task ["capital of
    France?"], and [run_task] ends after three effects, none of them a
    delivery, although every call of [send_email] shows as one
    ([send_email_delivers]). *)
Lemma run_task_agent_error_not_delivered :
  fst (run_task smtp_cfg (Raise model_down) accepting
         (Py.lit "capital of France?")) =
    [ Log INFO "Starting agent for task:\n  %s" [Py.lit "capital of France?"];
      Invoke (Py.lit "user") (Py.lit "capital of France?") 30;
      Log ERROR "Agent raised an unexpected error: %s"
        [Py.lit "[Errno 111] Connection refused"] ]
  /\ existsb is_delivery
       (fst (run_task smtp_cfg (Raise model_down) accepting
               (Py.lit "capital of France?"))) = false
  /\ existsb is_delivery
       (fst (run_task console_cfg (Raise model_down) accepting
               (Py.lit "capital of France?"))) = false.
Proof. repeat split. Qed.




(** ** The handler *)

Lemma eqb_eq (s t : Py.str) : Py.eqb s t = true <-> s = t.
Proof.
  revert t. induction s as [|a s IH]; intros [|b t]; simpl;
    try (split; [discriminate | congruence]); [tauto|].
  rewrite andb_true_iff, N.eqb_eq, IH. split.
  - intros [-> ->]. reflexivity.
  - intros H. injection H as -> ->. now split.
Qed.

Section Handler.

Variable cfg : config.
Variable resolve : Py.str -> Py.str.

Lemma on_modified_filtered self event w :
  is_directory event = true
  \/ Py.eqb (resolve (src_path event)) (TASKS_FILE cfg) = false ->
  on_modified cfg resolve self event w = (self, ([], Return tt)).
Proof.
  unfold on_modified. intros [H | H].
  - now rewrite H.
  - rewrite H. now destruct (is_directory event).
Qed.

Lemma on_modified_debounced self event w :
  qualifies cfg resolve event ->
  (monotonic w - _last_modified self <? 1)%float = true ->
  on_modified cfg resolve self event w = (self, ([], Return tt)).
Proof.
  intros [Hdir Hpath] Hdeb. unfold on_modified.
  now rewrite Hdir, Hpath, Hdeb.
Qed.

Lemma on_modified_fired self event w :
  qualifies cfg resolve event ->
  (monotonic w - _last_modified self <? 1)%float = false ->
  on_modified cfg resolve self event w =
  ({| _last_modified := monotonic w |}, handle_change cfg w).
Proof.
  intros [Hdir Hpath] Hdeb. unfold on_modified.
  rewrite Hdir, Hpath, Hdeb. simpl negb. cbv iota. f_equal.
  unfold handle_change, TASKS_FILE_read_text, log.
  destruct (read_text w) as [content|e]; cbn.
  - destruct (run_task _ _ _ _) as [tr r]. reflexivity.
  - destruct (is_OSError e); reflexivity.
Qed.

Lemma handle_change_triggers w : triggers (fst (handle_change cfg w)) = 1.
Proof.
  unfold handle_change. destruct (read_text w) as [content|e].
  - pose proof (run_task_no_read cfg (the_agent w) (the_server w) content)
      as H.
    unfold silent in H. destruct (run_task _ _ _ _) as [tr r].
    unfold triggers. simpl in *. now rewrite H.
  - destruct (is_OSError e); reflexivity.
Qed.

End Handler.

Section Debounce.

Variable cfg : config.
Variable resolve : Py.str -> Py.str.

Let notification : Type := (fs_event * world)%type.

(** Notifications inside the window of the timestamp the handler holds
    leave the handler as it is and do nothing. *)
Lemma on_modified_all_discarded (self : TaskFileHandler)
  (ns : list notification) :
  Forall (fun n => qualifies cfg resolve (fst n)) ns ->
  Forall (fun n =>
            (monotonic (snd n) - _last_modified self <? 1)%float = true) ns ->
  on_modified_all cfg resolve self ns = (self, []).
Proof.
  induction ns as [|[event w] ns IH]; intros Hq Hw; simpl.
  - reflexivity.
  - inversion Hq as [|? ? Hq1 Hq2]; subst.
    inversion Hw as [|? ? Hw1 Hw2]; subst. simpl in Hq1, Hw1.
    rewrite (on_modified_debounced self w Hq1 Hw1).
    now rewrite (IH Hq2 Hw2).
Qed.

(** Notifications a window apart fire one by one. *)
Lemma on_modified_all_spaced (ns : list notification) :
  forall self,
  Forall (fun n => qualifies cfg resolve (fst n)) ns ->
  spaced (_last_modified self) ns ->
  triggers (snd (on_modified_all cfg resolve self ns)) = List.length ns.
Proof.
  induction ns as [|[event w] ns IH]; intros self Hq Hs; simpl.
  - reflexivity.
  - inversion Hq as [|? ? Hq1 Hq2]; subst. simpl in Hq1.
    destruct Hs as [Hs1 Hs2].
    rewrite (on_modified_fired self w Hq1 Hs1).
    specialize (IH {| _last_modified := monotonic w |} Hq2 Hs2).
    destruct (on_modified_all _ _ _ ns) as [self'' t]. simpl in *.
    now rewrite triggers_app, handle_change_triggers, IH.
Qed.

End Debounce.

(** C3. Debounce.  For a notification for the watched file: if the clock
    reads less than 1 second after the stored timestamp, the call does
    nothing and keeps the timestamp; otherwise it stores the clock
    reading and makes exactly one trigger, a read of the task file
    followed, when the read gives a content, by [run_task] on it.  Hence
    a notification that fires followed by any notifications less than 1
    second after it makes one trigger in all, and notifications each at
    least 1 second after the one before make one trigger each. *)
Theorem on_modified_debounce (cfg : config) (resolve : Py.str -> Py.str)
  (self : TaskFileHandler) (event : fs_event) (w : world)
  (ns : list (fs_event * world)) :
  qualifies cfg resolve event ->
  Forall (fun n => qualifies cfg resolve (fst n)) ns ->
  ((monotonic w - _last_modified self <? 1)%float = true ->
     on_modified cfg resolve self event w = (self, ([], Return tt)))
  /\ ((monotonic w - _last_modified self <? 1)%float = false ->
      fst (on_modified cfg resolve self event w) =
        {| _last_modified := monotonic w |}
      /\ triggers (fst (snd (on_modified cfg resolve self event w))) = 1
      /\ (forall content, read_text w = Return content ->
            snd (on_modified cfg resolve self event w) =
            (let (tr, r) :=
               run_task cfg (the_agent w) (the_server w) content in
             (Log INFO "Change detected in %s" [TASKS_FILE cfg]
              :: ReadText (TASKS_FILE cfg) :: tr, r)))
      /\ (Forall (fun n =>
                    (monotonic (snd n) - monotonic w <? 1)%float = true) ns ->
          triggers
            (snd (on_modified_all cfg resolve self ((event, w) :: ns))) = 1
          /\ fst (on_modified_all cfg resolve self ((event, w) :: ns)) =
             {| _last_modified := monotonic w |}))
  /\ (spaced (_last_modified self) ((event, w) :: ns) ->
      triggers (snd (on_modified_all cfg resolve self ((event, w) :: ns))) =
      S (List.length ns)).
Proof.
  intros Hq Hqs. split; [| split].
  - now apply on_modified_debounced.
  - intros Hdeb. rewrite (on_modified_fired self w Hq Hdeb). simpl fst.
    simpl snd. split; [reflexivity | split; [| split]].
    + apply handle_change_triggers.
    + intros content Hread. unfold handle_change. now rewrite Hread.
    + intros Hburst. simpl.
      rewrite (on_modified_fired self w Hq Hdeb).
      rewrite (on_modified_all_discarded
                 {| _last_modified := monotonic w |} Hqs Hburst).
      simpl. rewrite app_nil_r. split; [| reflexivity].
      apply handle_change_triggers.
  - intros Hs.
    apply (on_modified_all_spaced (ns := (event, w) :: ns) self); [| exact Hs].
    now constructor.
Qed.

(** C4. Filtering: a notification for a directory, or one whose resolved
    path is not the watched file, does nothing: the file is not read,
    no task runs, the timestamp stays. *)
Theorem on_modified_filters (cfg : config) (resolve : Py.str -> Py.str)
  (self : TaskFileHandler) (event : fs_event) (w : world) :
  is_directory event = true \/ resolve (src_path event) <> TASKS_FILE cfg ->
  on_modified cfg resolve self event w = (self, ([], Return tt))
  /\ triggers (fst (snd (on_modified cfg resolve self event w))) = 0
  /\ existsb is_invoke (fst (snd (on_modified cfg resolve self event w)))
     = false
  /\ _last_modified (fst (on_modified cfg resolve self event w)) =
     _last_modified self.
Proof.
  intros H.
  assert (Hskip : on_modified cfg resolve self event w
                  = (self, ([], Return tt))).
  { apply on_modified_filtered. destruct H as [H | H]; [now left | right].
    destruct (Py.eqb _ _) eqn:Heq; [| reflexivity].
    apply eqb_eq in Heq. contradiction. }
  rewrite Hskip. repeat split.
Qed.

(** C10. The timestamp is stored before the file is read: whatever the
    read gives (a content, blank or not, or an exception) and however
    the call ends, a notification that passes the debounce leaves its
    clock reading in the handler, and the next notification for the
    watched file less than 1 second later is discarded with no effect. *)
Theorem on_modified_consumes_window (cfg : config)
  (resolve : Py.str -> Py.str) (self : TaskFileHandler)
  (event event' : fs_event) (w w' : world) :
  qualifies cfg resolve event ->
  qualifies cfg resolve event' ->
  (monotonic w - _last_modified self <? 1)%float = false ->
  (monotonic w' - monotonic w <? 1)%float = true ->
  _last_modified (fst (on_modified cfg resolve self event w)) = monotonic w
  /\ triggers (fst (snd (on_modified cfg resolve self event w))) = 1
  /\ on_modified cfg resolve (fst (on_modified cfg resolve self event w))
       event' w' =
     (fst (on_modified cfg resolve self event w), ([], Return tt)).
Proof.
  intros Hq Hq' Hfire Hnear.
  rewrite (on_modified_fired self w Hq Hfire). simpl fst. simpl snd.
  split; [reflexivity | split].
  - apply handle_change_triggers.
  - now apply on_modified_debounced.
Qed.

(** The watched file itself passes the filter. *)
Lemma watched_qualifies : qualifies smtp_cfg resolved watched.
Proof. split; reflexivity. Defined.

(** Three writes within one second after a quiet time make one
    trigger; three writes more than a second apart make three. *)
Lemma on_modified_debounce_witness :
  (triggers
     (snd (on_modified_all smtp_cfg resolved {| _last_modified := 100 |}
             [ (watched, at_time 105.25); (watched, at_time 105.5);
               (watched, at_time 106) ])) = 1
   /\ fst (on_modified_all smtp_cfg resolved {| _last_modified := 100 |}
             [ (watched, at_time 105.25); (watched, at_time 105.5);
               (watched, at_time 106) ]) =
      {| _last_modified := 105.25 |})
  /\ triggers
       (snd (on_modified_all smtp_cfg resolved {| _last_modified := 100 |}
               [ (watched, at_time 105.25); (watched, at_time 106.25);
                 (watched, at_time 107.5) ])) = 3.
Proof.
  split.
  - assert (Hqs : Forall (fun n : fs_event * world =>
                            qualifies smtp_cfg resolved (fst n))
                     [ (watched, at_time 105.5); (watched, at_time 106) ])
      by (repeat constructor).
    destruct (@on_modified_debounce smtp_cfg resolved
                {| _last_modified := 100 |} watched (at_time 105.25)
                [ (watched, at_time 105.5); (watched, at_time 106) ]
                watched_qualifies Hqs)
      as [_ [Hfire _]].
    destruct (Hfire eq_refl) as [_ [_ [_ Hburst]]].
    apply Hburst. repeat constructor.
  - assert (Hqs : Forall (fun n : fs_event * world =>
                            qualifies smtp_cfg resolved (fst n))
                     [ (watched, at_time 106.25); (watched, at_time 107.5) ])
      by (repeat constructor).
    destruct (@on_modified_debounce smtp_cfg resolved
                {| _last_modified := 100 |} watched (at_time 105.25)
                [ (watched, at_time 106.25); (watched, at_time 107.5) ]
                watched_qualifies Hqs)
      as [_ [_ Hspaced]].
    apply Hspaced. simpl. repeat split.
Defined.

(** A write to a neighbour of the task file. *)
Lemma on_modified_filters_witness :
  on_modified smtp_cfg resolved {| _last_modified := 100 |} other_file
    (at_time 105.25) =
    ({| _last_modified := 100 |}, ([], Return tt))
  /\ triggers
       (fst (snd (on_modified smtp_cfg resolved {| _last_modified := 100 |}
                    other_file (at_time 105.25)))) = 0
  /\ existsb is_invoke
       (fst (snd (on_modified smtp_cfg resolved {| _last_modified := 100 |}
                    other_file (at_time 105.25)))) = false
  /\ _last_modified
       (fst (on_modified smtp_cfg resolved {| _last_modified := 100 |}
               other_file (at_time 105.25))) = 100%float.
Proof.
  apply (@on_modified_filters smtp_cfg resolved {| _last_modified := 100 |}
           other_file (at_time 105.25)).
  right. intros H. vm_compute in H. discriminate H.
Defined.

(** An unreadable task file still starts the window: the write three
    quarters of a second later is dropped. *)
Lemma on_modified_consumes_window_witness :
  _last_modified
    (fst (on_modified smtp_cfg resolved TaskFileHandler_init watched
            (unreadable_at 100.5))) = 100.5%float
  /\ triggers
       (fst (snd (on_modified smtp_cfg resolved TaskFileHandler_init watched
                    (unreadable_at 100.5)))) = 1
  /\ on_modified smtp_cfg resolved
       (fst (on_modified smtp_cfg resolved TaskFileHandler_init watched
               (unreadable_at 100.5)))
       watched (at_time 101.25) =
     (fst (on_modified smtp_cfg resolved TaskFileHandler_init watched
             (unreadable_at 100.5)),
      ([], Return tt)).
Proof.
  apply (@on_modified_consumes_window smtp_cfg resolved TaskFileHandler_init
           watched watched (unreadable_at 100.5) (at_time 101.25)
           watched_qualifies watched_qualifies);
    reflexivity.
Defined.

(** A handler fresh from [__init__] holds the timestamp 0.0, so while
    the monotonic clock reads less than 1 a notification is inside the
    window of a write that never was. *)
Lemma on_modified_early_clock :
  on_modified smtp_cfg resolved TaskFileHandler_init watched (at_time 0.5) =
  (TaskFileHandler_init, ([], Return tt)).
Proof. reflexivity. Qed.

(** ** More on the SMTP session *)

(** Deciding the tests a trace of [send_email] still holds. *)
Ltac settle_class :=
  repeat match goal with
         | |- context [if is_SMTPException ?e then _ else _] =>
             destruct (is_SMTPException e)
         | |- context [if is_OSError ?e then _ else _] =>
             destruct (is_OSError e)
         end.




(** X2. Credentials and mail only after what comes before: [send_email]
    logs in only when the connection was opened and EHLO, STARTTLS and
    the second EHLO returned, and hands the message over only when the
    login returned as well. *)
Theorem send_email_login_after_starttls (cfg : config) (srv : smtp_server)
  (subject body : Py.str) (op : smtp_op) :
  In op (smtp_calls (fst (send_email cfg srv subject body))) ->
  match op with
  | SMTP_login _ _ =>
      srv 0 = None /\ srv 1 = None /\ srv 2 = None /\ srv 3 = None
  | SMTP_sendmail _ _ _ =>
      srv 0 = None /\ srv 1 = None /\ srv 2 = None /\ srv 3 = None
      /\ srv 4 = None
  | _ => True
  end.
Proof.
  destruct op; try (intros _; exact I);
    (unfold send_email;
     destruct (Py.truthy (SMTP_HOST cfg));
     [ simpl negb; cbv iota | simpl; tauto ];
     session srv; settle_class; simpl;
     intros H; repeat split;
     repeat (destruct H as [H | H]; [discriminate H |]); destruct H).
Qed.

(** The login is rejected: it was attempted, so the channel was
    upgraded before. *)
Lemma send_email_login_after_starttls_witness :
  rejecting_login 0 = None /\ rejecting_login 1 = None
  /\ rejecting_login 2 = None /\ rejecting_login 3 = None.
Proof.
  apply (send_email_login_after_starttls smtp_cfg rejecting_login
           (Py.lit "s") (Py.lit "b")
           (SMTP_login (Py.lit "raven") (Py.lit "secret"))).
  vm_compute. tauto.
Defined.





(** ** More on running a task *)

Lemma lstrip_clean_head (s : Py.str) : clean_head (Py.lstrip s).
Proof.
  induction s as [|c s IH]; simpl; [exact I|].
  destruct (Py.isspace c) eqn:Hc; [exact IH | exact Hc].
Qed.

Lemma lstrip_of_clean_head (s : Py.str) : clean_head s -> Py.lstrip s = s.
Proof. destruct s as [|c s]; simpl; [reflexivity | now intros ->]. Qed.

(** [rstrip] only removes from the end. *)
Lemma rstrip_prefix (s : Py.str) : exists q, s = Py.rstrip s ++ q.
Proof.
  unfold Py.rstrip. destruct (lstrip_suffix (rev s)) as [p [Hs _]].
  exists (rev p). rewrite <- rev_app_distr, <- Hs. now rewrite rev_involutive.
Qed.

Lemma rstrip_clean_head (s : Py.str) : clean_head s -> clean_head (Py.rstrip s).
Proof.
  intros H. destruct (rstrip_prefix s) as [q Hq].
  destruct (Py.rstrip s) as [|c r]; [exact I|].
  rewrite Hq in H. exact H.
Qed.

Lemma strip_idempotent (s : Py.str) : Py.strip (Py.strip s) = Py.strip s.
Proof.
  unfold Py.strip at 1.
  rewrite (lstrip_of_clean_head (Py.strip s)).
  - unfold Py.strip, Py.rstrip. rewrite rev_involutive.
    now rewrite (lstrip_of_clean_head _ (lstrip_clean_head _)).
  - apply rstrip_clean_head, lstrip_clean_head.
Qed.

Lemma strip_blank_iff (s : Py.str) :
  Py.strip s = [] <-> forallb Py.isspace s = true.
Proof. split; [apply strip_nil_all_space | apply strip_all_space]. Qed.

(** X5. White space around the task does not count: [run_task] does the
    same on a text and on the text stripped. *)
Theorem run_task_strip_invariant (cfg : config) (a : agent)
  (srv : smtp_server) (content : Py.str) :
  run_task cfg a srv (Py.strip content) = run_task cfg a srv content.
Proof. unfold run_task. now rewrite strip_idempotent. Qed.


Lemma run_task_empty_result (cfg : config) (srv : smtp_server)
  (content : Py.str) :
  Py.strip content <> [] ->
  run_task cfg (Return []) srv content =
  (run_task_start (Py.strip content),
   Raise (Exn IndexError (Py.lit "list index out of range"))).
Proof.
  intros Hne. unfold run_task.
  destruct (Py.strip content) as [|c t] eqn:Hs; [congruence | reflexivity].
Qed.


(** X7. No message at all: when the agent returns a state whose message
    list is empty, [run_task] on a text that is not blank raises the
    [IndexError] right after the invocation: nothing is logged as an
    error and nothing is delivered. *)
Theorem run_task_no_messages (cfg : config) (srv : smtp_server)
  (content : Py.str) :
  forallb Py.isspace content = false ->
  run_task cfg (Return []) srv content =
  (run_task_start (Py.strip content),
   Raise (Exn IndexError (Py.lit "list index out of range"))).
Proof.
  intros Hsp. apply run_task_empty_result.
  intros Hs. apply strip_blank_iff in Hs. congruence.
Qed.

Lemma run_task_no_messages_witness :
  run_task smtp_cfg (Return []) accepting (Py.lit "capital of France?") =
  (run_task_start (Py.strip (Py.lit "capital of France?")),
   Raise (Exn IndexError (Py.lit "list index out of range"))).
Proof.
  apply (run_task_no_messages smtp_cfg accepting
           (Py.lit "capital of France?")).
  reflexivity.
Defined.

Lemma invocations_app (t t' : trace) :
  invocations (t ++ t') = invocations t + invocations t'.
Proof. unfold invocations. now rewrite filter_app, length_app. Qed.

Lemma send_email_no_invoke (cfg : config) (srv : smtp_server)
  (subject body : Py.str) :
  invocations (fst (send_email cfg srv subject body)) = 0.
Proof.
  unfold invocations.
  now rewrite (send_email_footprint cfg is_invoke srv subject body).
Qed.

(** The calls of the agent in a run of [run_task], counted. *)
Lemma run_task_invocations (cfg : config) (a : agent) (srv : smtp_server)
  (content : Py.str) :
  invocations (fst (run_task cfg a srv content)) =
  if forallb Py.isspace content then 0 else 1.
Proof.
  destruct (Py.strip content) as [|c t] eqn:Hs.
  - rewrite (run_task_blank cfg srv a content Hs).
    apply strip_blank_iff in Hs. now rewrite Hs.
  - assert (Hne : Py.strip content <> []) by congruence.
    assert (Hsp : forallb Py.isspace content = false).
    { destruct (forallb Py.isspace content) eqn:Hb; [| reflexivity].
      apply strip_all_space in Hb. congruence. }
    rewrite Hsp. destruct a as [[|m0 ms]|e'].
    + unfold run_task. rewrite Hs. reflexivity.
    + destruct (@exists_last _ (m0 :: ms) ltac:(discriminate))
        as [msgs' [m Hm]].
      rewrite Hm, (run_task_returned cfg srv msgs' m content Hne).
      unfold emit, bind.
      pose proof (send_email_no_invoke cfg srv
        (Py.lit "[Huginn] " ++ Py.upto 60 (Py.strip content)
         ++ (if 60 <? List.length (Py.strip content)
             then Py.ellipsis else []))
        match m with Message _ c0 => c0 | Opaque repr => repr end) as Hd.
      destruct (send_email _ _ _ _) as [tr r]. simpl in *.
      unfold invocations in *. simpl. now rewrite Hd.
    + destruct (is_Exception e') eqn:He.
      * now rewrite (run_task_raised cfg srv e' content Hne He).
      * now rewrite (run_task_escaped cfg srv e' content Hne He).
Qed.

(** X8. One call of the agent per task: [run_task] invokes the agent
    once when the text is not blank, whatever the agent and the server
    then do, and not at all when it is blank; the call carries the
    stripped text as the user message and the recursion limit 30. *)
Theorem run_task_invokes_once (cfg : config) (a : agent) (srv : smtp_server)
  (content : Py.str) :
  invocations (fst (run_task cfg a srv content)) =
    (if forallb Py.isspace content then 0 else 1)
  /\ forall role text limit,
       In (Invoke role text limit) (fst (run_task cfg a srv content)) ->
       role = Py.lit "user" /\ text = Py.strip content /\ limit = 30%Z.
Proof.
  split; [apply run_task_invocations |].
  intros role text limit.
  assert (Hcases : Py.strip content = [] \/ Py.strip content <> [])
    by (destruct (Py.strip content); [now left | right; discriminate]).
  destruct Hcases as [Hs | Hne].
  - rewrite (run_task_blank cfg srv a content Hs).
    intros [H | []]. discriminate H.
  - assert (Hstart : In (Invoke role text limit)
                       (run_task_start (Py.strip content)) ->
                     role = Py.lit "user" /\ text = Py.strip content
                     /\ limit = 30%Z).
    { intros [H | [H | []]]; [discriminate H |].
      injection H as <- <- <-. now repeat split. }
    destruct a as [[|m0 ms]|e'].
    + rewrite (run_task_empty_result cfg srv content Hne). exact Hstart.
    + destruct (@exists_last _ (m0 :: ms) ltac:(discriminate))
        as [msgs' [m Hm]].
      rewrite Hm, (run_task_returned cfg srv msgs' m content Hne).
      unfold emit, bind.
      match goal with
      | |- context [send_email cfg srv ?S ?B] =>
          pose proof (send_email_footprint cfg is_invoke srv S B
                        (fun _ _ _ => eq_refl) (fun _ => eq_refl)
                        (fun _ => eq_refl)) as Hquiet;
          destruct (send_email cfg srv S B) as [tr r]
      end.
      unfold silent in Hquiet. cbn -[In] in *.
      intros [H | [H | [H | H]]];
        [ discriminate H | apply Hstart; right; now left | discriminate H |].
      exfalso.
      assert (Hf : In (Invoke role text limit) (filter is_invoke tr))
        by (apply filter_In; now split).
      rewrite Hquiet in Hf. destruct Hf.
    + destruct (is_Exception e') eqn:He.
      * rewrite (run_task_raised cfg srv e' content Hne He). cbn -[In].
        intros [H | [H | [H | []]]];
          [ discriminate H | apply Hstart; right; now left | discriminate H ].
      * rewrite (run_task_escaped cfg srv e' content Hne He). exact Hstart.
Qed.


(** ** More on the handler *)

Section HandlerCases.

Variable cfg : config.
Variable resolve : Py.str -> Py.str.

(** The two ways a call of [on_modified] goes. *)
Lemma on_modified_cases self event w :
  on_modified cfg resolve self event w =
  if passes_filter cfg resolve event
     && negb (monotonic w - _last_modified self <? 1)%float
  then ({| _last_modified := monotonic w |}, handle_change cfg w)
  else (self, ([], Return tt)).
Proof.
  unfold passes_filter.
  destruct (is_directory event) eqn:Hdir.
  - simpl. apply on_modified_filtered. now left.
  - destruct (Py.eqb (resolve (src_path event)) (TASKS_FILE cfg)) eqn:Hpath.
    + simpl.
      destruct (monotonic w - _last_modified self <? 1)%float eqn:Hdeb; simpl.
      * apply on_modified_debounced; [now split | exact Hdeb].
      * apply on_modified_fired; [now split | exact Hdeb].
    + simpl. apply on_modified_filtered. now right.
Qed.

Lemma passes_filter_qualifies event :
  passes_filter cfg resolve event = true <-> qualifies cfg resolve event.
Proof.
  unfold passes_filter, qualifies. rewrite andb_true_iff, negb_true_iff.
  tauto.
Qed.

Lemma handle_change_invocations w :
  invocations (fst (handle_change cfg w)) <= 1.
Proof.
  unfold handle_change. destruct (read_text w) as [content|e].
  - pose proof (run_task_invocations cfg (the_agent w) (the_server w) content)
      as H.
    destruct (run_task _ _ _ _) as [tr r]. simpl in *.
    unfold invocations in *. simpl. rewrite H.
    destruct (forallb Py.isspace content); lia.
  - destruct (is_OSError e); cbn; lia.
Qed.

Lemma on_modified_all_app self ns ns' :
  on_modified_all cfg resolve self (ns ++ ns') =
  (fst (on_modified_all cfg resolve
          (fst (on_modified_all cfg resolve self ns)) ns'),
   snd (on_modified_all cfg resolve self ns)
   ++ snd (on_modified_all cfg resolve
             (fst (on_modified_all cfg resolve self ns)) ns')).
Proof.
  revert self. induction ns as [|[event w] ns IH]; intros self; simpl.
  - now destruct (on_modified_all cfg resolve self ns').
  - destruct (on_modified cfg resolve self event w) as [self' m].
    rewrite IH.
    destruct (on_modified_all cfg resolve self' ns) as [self'' t]. simpl.
    now rewrite app_assoc.
Qed.

End HandlerCases.

(** X9. An unreadable task file: when the notification passes the
    filter and the debounce and reading the file raises an [OSError],
    the handler logs the error and returns normally; the agent is not
    called and nothing is delivered. *)
Theorem on_modified_unreadable (cfg : config) (resolve : Py.str -> Py.str)
  (self : TaskFileHandler) (event : fs_event) (w : world) (e : exn) :
  qualifies cfg resolve event ->
  (monotonic w - _last_modified self <? 1)%float = false ->
  read_text w = Raise e ->
  is_OSError e = true ->
  snd (on_modified cfg resolve self event w) =
    ([ Log INFO "Change detected in %s" [TASKS_FILE cfg];
       ReadText (TASKS_FILE cfg);
       Log ERROR "Could not read %s: %s" [TASKS_FILE cfg; exn_str e] ],
     Return tt)
  /\ invocations (fst (snd (on_modified cfg resolve self event w))) = 0
  /\ existsb is_delivery (fst (snd (on_modified cfg resolve self event w)))
     = false.
Proof.
  intros Hq Hdeb Hread He.
  rewrite (on_modified_fired self w Hq Hdeb). simpl snd.
  unfold handle_change. rewrite Hread, He. repeat split.
Qed.

Lemma on_modified_unreadable_witness :
  snd (on_modified smtp_cfg resolved TaskFileHandler_init watched
         (unreadable_at 100.5)) =
    ([ Log INFO "Change detected in %s" [TASKS_FILE smtp_cfg];
       ReadText (TASKS_FILE smtp_cfg);
       Log ERROR "Could not read %s: %s"
         [TASKS_FILE smtp_cfg; Py.lit "[Errno 13] Permission denied"] ],
     Return tt)
  /\ invocations
       (fst (snd (on_modified smtp_cfg resolved TaskFileHandler_init watched
                    (unreadable_at 100.5)))) = 0
  /\ existsb is_delivery
       (fst (snd (on_modified smtp_cfg resolved TaskFileHandler_init watched
                    (unreadable_at 100.5)))) = false.
Proof.
  apply (@on_modified_unreadable smtp_cfg resolved TaskFileHandler_init
           watched (unreadable_at 100.5)
           (Exn OSError (Py.lit "[Errno 13] Permission denied"))
           watched_qualifies);
    reflexivity.
Defined.



(** X11. Never more than one run per notification: over any sequence of
    notifications the handler reads the task file at most once for each
    notification that passes the filter, and calls the agent at most
    once for each read. *)
Theorem on_modified_all_bounded (cfg : config) (resolve : Py.str -> Py.str)
  (self : TaskFileHandler) (ns : list (fs_event * world)) :
  invocations (snd (on_modified_all cfg resolve self ns))
  <= triggers (snd (on_modified_all cfg resolve self ns))
  /\ triggers (snd (on_modified_all cfg resolve self ns))
     <= List.length
          (filter (fun n => passes_filter cfg resolve (fst n)) ns)
  /\ List.length (filter (fun n => passes_filter cfg resolve (fst n)) ns)
     <= List.length ns.
Proof.
  revert self. induction ns as [|[event w] ns IH]; intros self.
  - simpl. repeat split; apply le_n.
  - simpl on_modified_all. rewrite on_modified_cases.
    simpl filter. simpl fst at 3 5.
    destruct (passes_filter cfg resolve event) eqn:Hpass.
    + destruct (negb (monotonic w - _last_modified self <? 1)%float).
      * simpl andb. cbv iota.
        specialize (IH {| _last_modified := monotonic w |}).
        destruct (on_modified_all cfg resolve _ ns) as [self'' t].
        simpl in *. rewrite invocations_app, triggers_app.
        rewrite handle_change_triggers.
        pose proof (handle_change_invocations cfg w). lia.
      * simpl andb. cbv iota. specialize (IH self).
        destruct (on_modified_all cfg resolve self ns) as [self'' t].
        simpl in *. lia.
    + simpl andb. cbv iota. specialize (IH self).
      destruct (on_modified_all cfg resolve self ns) as [self'' t].
      simpl in *. lia.
Qed.

(** X12. Notifications for other files do not touch the debounce: a
    sequence of notifications does to the handler, and makes it do,
    exactly what the notifications for the watched file in it do. *)
Theorem on_modified_all_ignores_others (cfg : config)
  (resolve : Py.str -> Py.str) (self : TaskFileHandler)
  (ns : list (fs_event * world)) :
  on_modified_all cfg resolve self ns =
  on_modified_all cfg resolve self
    (filter (fun n => passes_filter cfg resolve (fst n)) ns).
Proof.
  revert self. induction ns as [|[event w] ns IH]; intros self.
  - reflexivity.
  - simpl filter. simpl fst.
    destruct (passes_filter cfg resolve event) eqn:Hpass.
    + simpl. destruct (on_modified cfg resolve self event w) as [self' m].
      now rewrite IH.
    + simpl. rewrite on_modified_cases, Hpass. simpl.
      rewrite <- IH.
      now destruct (on_modified_all cfg resolve self ns).
Qed.

(** X13. The window starts at the last trigger, not at the last
    notification: after a notification that fires, later ones inside
    its window are dropped without moving the timestamp, so the first
    notification at least 1 second after the one that fired fires too,
    however close it is to the dropped ones. *)
Theorem on_modified_window_anchored (cfg : config)
  (resolve : Py.str -> Py.str) (self : TaskFileHandler)
  (event event' : fs_event) (w w' : world) (ns : list (fs_event * world)) :
  qualifies cfg resolve event ->
  Forall (fun n => qualifies cfg resolve (fst n)) ns ->
  qualifies cfg resolve event' ->
  (monotonic w - _last_modified self <? 1)%float = false ->
  Forall (fun n => (monotonic (snd n) - monotonic w <? 1)%float = true) ns ->
  (monotonic w' - monotonic w <? 1)%float = false ->
  triggers
    (snd (on_modified_all cfg resolve self
            ((event, w) :: ns ++ [(event', w')]))) = 2
  /\ fst (on_modified_all cfg resolve self
            ((event, w) :: ns ++ [(event', w')])) =
     {| _last_modified := monotonic w' |}.
Proof.
  intros Hq Hqs Hq' Hfire Hnear Hfar.
  simpl on_modified_all. rewrite (on_modified_fired self w Hq Hfire).
  rewrite on_modified_all_app.
  rewrite (on_modified_all_discarded
             {| _last_modified := monotonic w |} Hqs Hnear).
  simpl.
  rewrite (on_modified_fired {| _last_modified := monotonic w |} w' Hq' Hfar).
  simpl. rewrite app_nil_r, triggers_app, !handle_change_triggers.
  split; reflexivity.
Qed.

(** Saves at 105.25, 105.5 and 106, then one at 106.25: the last is a
    quarter of a second after the third and fires. *)
Lemma on_modified_window_anchored_witness :
  triggers
    (snd (on_modified_all smtp_cfg resolved {| _last_modified := 100 |}
            ((watched, at_time 105.25)
             :: [ (watched, at_time 105.5); (watched, at_time 106) ]
             ++ [ (watched, at_time 106.25) ]))) = 2
  /\ fst (on_modified_all smtp_cfg resolved {| _last_modified := 100 |}
            ((watched, at_time 105.25)
             :: [ (watched, at_time 105.5); (watched, at_time 106) ]
             ++ [ (watched, at_time 106.25) ])) =
     {| _last_modified := 106.25 |}.
Proof.
  assert (Hqs : Forall (fun n : fs_event * world =>
                          qualifies smtp_cfg resolved (fst n))
                   [ (watched, at_time 105.5); (watched, at_time 106) ])
    by (repeat constructor).
  apply (@on_modified_window_anchored smtp_cfg resolved
           {| _last_modified := 100 |} watched watched
           (at_time 105.25) (at_time 106.25)
           [ (watched, at_time 105.5); (watched, at_time 106) ]
           watched_qualifies Hqs watched_qualifies);
    [ reflexivity | repeat constructor | reflexivity ].
Defined.

(** ** The settings at work *)





(** ** The entry point at work *)

Module MainFacts.

Import Main.

Lemma keep_alive_run (k : nat) (s : signal) :
  keep_alive k s = (repeat (Call (Sleep 1)) (S k), Raised s).
Proof.
  induction k as [|k IH]; [reflexivity|].
  cbn [keep_alive]. rewrite IH. reflexivity.
Qed.

Lemma in_calls (o : op) (t : list effect) : In o (calls t) <-> In (Call o) t.
Proof.
  unfold calls. rewrite in_flat_map. split.
  - intros [[o'|lvl fmt args] [Hin Ho]]; simpl in Ho.
    + destruct Ho as [<- | []]. exact Hin.
    + destruct Ho.
  - intros Hin. exists (Call o). split; [exact Hin | now left].
Qed.

Lemma calls_app (t t' : list effect) : calls (t ++ t') = calls t ++ calls t'.
Proof. unfold calls. apply flat_map_app. Qed.

Lemma calls_call (o : op) (t : list effect) :
  calls (Call o :: t) = o :: calls t.
Proof. reflexivity. Qed.

Lemma calls_logged lvl fmt args (t : list effect) :
  calls (Logged lvl fmt args :: t) = calls t.
Proof. reflexivity. Qed.

Lemma calls_sleeps (n : nat) :
  calls (repeat (Call (Sleep 1)) n) = repeat (Sleep 1) n.
Proof. induction n as [|n IH]; simpl; [reflexivity | now rewrite <- IH]. Qed.

Lemma in_sleeps (o : op) (n : nat) :
  In (Call o) (repeat (Call (Sleep 1)) n) -> o = Sleep 1.
Proof. intros H. apply repeat_spec in H. now injection H. Qed.

(** Running through [main] by what the world answers to each call. *)
Ltac main_cases w :=
  unfold main, call, info, skip; rewrite keep_alive_run;
  destruct (fails w (Mkdir _ _ _)) eqn:?;
  [ | destruct (file_exists w) eqn:?;
      [ | destruct (fails w (WriteText _ _)) eqn:? ] ];
  try (destruct (fails w (Schedule _ _)) eqn:?;
       [ | destruct (fails w Start) eqn:?;
           [ | destruct (woken_by w) eqn:?;
               (destruct (fails w Stop) eqn:?;
                [ | destruct (fails w Join) eqn:? ]) ] ]);
  cbn -[repeat In].

(** In a membership fact about the effects of a run, settle every
    alternative that names a different call. *)
Ltac sift H :=
  cbn -[repeat] in H;
  repeat (rewrite in_app_iff in H; cbn -[repeat] in H);
  repeat match type of H with
         | _ \/ _ => destruct H as [H | H]
         | False => destruct H
         | Call _ = Call _ => first [discriminate H | injection H as H]
         | Logged _ _ _ = Call _ => discriminate H
         | In (Call _) (repeat _ _) => apply in_sleeps in H; discriminate H
         end.

(** X16. The task file is never overwritten: [main] writes to the task
    file only when it does not exist, and then writes the empty text to
    it, after the directory was made. *)
Theorem main_writes_only_missing (cfg : config) (parent : Py.str)
  (w : world) (path content : Py.str) :
  In (WriteText path content) (calls (fst (main cfg parent w))) ->
  file_exists w = false /\ path = TASKS_FILE cfg /\ content = []
  /\ fails w (Mkdir parent true true) = None.
Proof.
  rewrite in_calls.
  main_cases w; intros H; sift H; repeat split; congruence.
Qed.

(** On a first start the empty task file is written. *)
Lemma main_writes_only_missing_witness :
  file_exists (calm false 2 KeyboardInterrupt) = false
  /\ TASKS_FILE smtp_cfg = TASKS_FILE smtp_cfg
  /\ @nil N = []
  /\ fails (calm false 2 KeyboardInterrupt)
       (Mkdir (Py.lit "/home/huginn") true true) = None.
Proof.
  apply (@main_writes_only_missing smtp_cfg (Py.lit "/home/huginn")
           (calm false 2 KeyboardInterrupt) (TASKS_FILE smtp_cfg) []).
  vm_compute. tauto.
Defined.

(** X17. Shutdown: when no call but the [sleep] that ends the loop
    raises, [main] makes the directory, asks for the file, writes it
    when it is missing, watches the directory without recursion, sleeps
    until the loop is ended, then stops and joins the observer and logs
    "Goodbye." last.  Ended by Ctrl-C it returns normally; ended by
    anything else it raises that after the clean-up. *)
Theorem main_shutdown (cfg : config) (parent : Py.str) (w : world) :
  (forall o, fails w o = None) ->
  calls (fst (main cfg parent w)) =
    [ Mkdir parent true true; Exists (TASKS_FILE cfg) ]
    ++ (if file_exists w then [] else [WriteText (TASKS_FILE cfg) []])
    ++ [ Schedule parent false; Start ]
    ++ repeat (Sleep 1) (S (naps w))
    ++ [ Stop; Join ]
  /\ (exists pre,
        fst (main cfg parent w) =
        pre ++ [Call Stop; Call Join; Logged INFO "Goodbye." []])
  /\ snd (main cfg parent w) =
     match woken_by w with
     | KeyboardInterrupt => Done
     | Other e => Raised (Other e)
     end.
Proof.
  intros Hcalm. unfold main, call, info, skip.
  rewrite !Hcalm, keep_alive_run.
  destruct (file_exists w), (woken_by w); cbn -[repeat calls];
    (split; [| split; [| reflexivity]]);
    try (eexists; repeat rewrite app_comm_cons; reflexivity);
    repeat first [ rewrite calls_call | rewrite calls_logged
                 | rewrite calls_app | rewrite calls_sleeps ];
    cbn -[repeat]; rewrite ?app_nil_r, <- ?app_assoc; reflexivity.
Qed.

(** Looking a call up in the effects of a run. *)
Ltac found :=
  cbn -[repeat]; repeat (rewrite in_app_iff; cbn -[repeat]);
  intuition (first [reflexivity | discriminate | congruence]).

(** X18. The observer is stopped exactly when it was started: whatever
    raises, [main] calls [observer.stop()] if and only if
    [observer.start()] was called and returned, and
    [observer.join()] if and only if [stop()] was called and returned. *)
Theorem main_stops_what_it_started (cfg : config) (parent : Py.str)
  (w : world) :
  (In Stop (calls (fst (main cfg parent w)))
   <-> In Start (calls (fst (main cfg parent w))) /\ fails w Start = None)
  /\ (In Join (calls (fst (main cfg parent w)))
      <-> In Stop (calls (fst (main cfg parent w))) /\ fails w Stop = None).
Proof.
  rewrite !in_calls.
  main_cases w;
    (split; split;
     [ intros H; sift H; found
     | intros [H H']; first [discriminate H' | sift H; found | found]
     | intros H; sift H; found
     | intros [H H']; first [discriminate H' | sift H; found | found] ]).
Qed.
(** X19. What leaves [main]: an exception escapes only when one of the
    calls on the file system or the observer raised it, or the
    keep-alive loop was ended by something other than Ctrl-C; the
    [KeyboardInterrupt] that ends the loop never escapes. *)
Theorem main_raises_only (cfg : config) (parent : Py.str) (w : world)
  (s : signal) :
  snd (main cfg parent w) = Raised s ->
  (exists o, fails w o = Some s)
  \/ (woken_by w = s /\ exists e, s = Other e).
Proof.
  main_cases w; intros H; try discriminate H; injection H as <-;
    first [ left; eexists; eassumption
          | right; split; [reflexivity | eexists; reflexivity] ].
Qed.

(** A sleep cut by a failing clock call: the clean-up runs and the
    error goes on. *)
Lemma main_raises_only_witness :
  (exists o, fails (calm true 0 (Other model_down)) o
             = Some (Other model_down))
  \/ (woken_by (calm true 0 (Other model_down)) = Other model_down
      /\ exists e, Other model_down = Other e).
Proof.
  apply (@main_raises_only smtp_cfg (Py.lit "/home/huginn")
           (calm true 0 (Other model_down)) (Other model_down)).
  reflexivity.
Defined.

(** A first start, ended by Ctrl-C during the third sleep. *)
Lemma main_shutdown_witness :
  calls (fst (main smtp_cfg (Py.lit "/home/huginn")
                (calm false 2 KeyboardInterrupt))) =
    [ Mkdir (Py.lit "/home/huginn") true true;
      Exists (TASKS_FILE smtp_cfg);
      WriteText (TASKS_FILE smtp_cfg) [];
      Schedule (Py.lit "/home/huginn") false; Start;
      Sleep 1; Sleep 1; Sleep 1; Stop; Join ]
  /\ snd (main smtp_cfg (Py.lit "/home/huginn")
            (calm false 2 KeyboardInterrupt)) = Done.
Proof.
  destruct (@main_shutdown smtp_cfg (Py.lit "/home/huginn")
              (calm false 2 KeyboardInterrupt) (fun _ => eq_refl))
    as [Hcalls [_ Hend]].
  split; [exact Hcalls | exact Hend].
Defined.

End MainFacts.
